(** * sysbox-fs: the kernel_panic_oops handler, the binfmt_misc/register
    handler and the FUSE file adapter.

    A shallow embedding of
      - handler/implementations/fsBinfmtRegister.go (FsBinfmtRegisterHandler),
      - the KernelPanicOopsHandler that follows it in the same source file,
      - the SysCommonHandler (package implementations),
      - fuse/file.go (the File adapter: Open, Read, Write, Setattr),
    together with the pieces of the Go standard library these call
    (strings.TrimSpace, strconv.Atoi, unicode/utf8 decoding). *)

From Stdlib Require Import ZArith List Ascii String Lia Bool.
From stdpp Require Import gmap strings list fin_maps.

Local Open Scope string_scope.
Local Open Scope Z_scope.

(** ** Go values *)

(** A Go [string] is an immutable sequence of bytes: Rocq's [string] of 8-bit
    [ascii].  A [[]byte] is a [list byte].  The two conversions are Go's
    [string(buf)] and [[]byte(s)]. *)

Definition string_of_bytes (buf : list Byte.byte) : string := string_of_list_byte buf.
Definition bytes_of_string (s : string) : list Byte.byte := list_byte_of_string s.

(** [len] of a slice or of a string, as a Go [int]. *)
Definition len {A} (l : list A) : Z := Z.of_nat (List.length l).
Definition slen (s : string) : Z := Z.of_nat (String.length s).

(** The numeric value of each byte of a string. *)
Definition byteval (a : ascii) : Z := Z.of_N (N_of_ascii a).
Definition bytevals (s : string) : list Z := List.map byteval (list_ascii_of_string s).

(** [s[lo:hi]] on a string (the callers below keep [0 <= lo <= hi <= len s]). *)
Definition sslice (s : string) (lo hi : Z) : string :=
  substring (Z.to_nat lo) (Z.to_nat (hi - lo)) s.

(** ** unicode/utf8 *)
Module Utf8.

Definition RuneError : Z := 65533.
Definition RuneSelf : Z := 128.
Definition UTFMax : Z := 4.

Definition locb : Z := 128.
Definition hicb : Z := 191.

(** Entries of the [first] table: the low three bits are the length of
    the sequence, the high four the index into [acceptRanges]. *)
Definition xx : Z := 241.
Definition as_ : Z := 240.
Definition s1 : Z := 2.
Definition s2 : Z := 19.
Definition s3 : Z := 3.
Definition s4 : Z := 35.
Definition s5 : Z := 52.
Definition s6 : Z := 4.
Definition s7 : Z := 68.

Definition first (b : Z) : Z :=
  if b <? 128 then as_
  else if b <? 194 then xx
  else if b <? 224 then s1
  else if b =? 224 then s2
  else if b <? 237 then s3
  else if b =? 237 then s4
  else if b <? 240 then s3
  else if b =? 240 then s5
  else if b <? 244 then s6
  else if b =? 244 then s7
  else xx.

Definition acceptRanges (i : Z) : Z * Z :=
  if i =? 0 then (locb, hicb)
  else if i =? 1 then (160, hicb)
  else if i =? 2 then (locb, 159)
  else if i =? 3 then (144, hicb)
  else if i =? 4 then (locb, 143)
  else (0, 0).

Definition maskx : Z := 63.
Definition mask2 : Z := 31.
Definition mask3 : Z := 15.
Definition mask4 : Z := 7.

(** [DecodeRuneInString]: the first rune of [s] and its width in bytes. *)
Definition DecodeRuneInString (s : list Z) : Z * Z :=
  match s with
  | [] => (RuneError, 0)
  | b0 :: t0 =>
    let x := first b0 in
    if as_ <=? x then
      ((if x =? xx then RuneError else b0), 1)
    else
      let sz := Z.land x 7 in
      let accept := acceptRanges (Z.shiftr x 4) in
      if len s <? sz then (RuneError, 1) else
      match t0 with
      | [] => (RuneError, 1)
      | b1 :: t1 =>
        if (b1 <? fst accept) || (snd accept <? b1) then (RuneError, 1) else
        if sz <=? 2 then
          (Z.lor (Z.shiftl (Z.land b0 mask2) 6) (Z.land b1 maskx), 2)
        else
        match t1 with
        | [] => (RuneError, 1)
        | b2 :: t2 =>
          if (b2 <? locb) || (hicb <? b2) then (RuneError, 1) else
          if sz <=? 3 then
            (Z.lor (Z.lor (Z.shiftl (Z.land b0 mask3) 12)
                          (Z.shiftl (Z.land b1 maskx) 6))
                   (Z.land b2 maskx), 3)
          else
          match t2 with
          | [] => (RuneError, 1)
          | b3 :: _ =>
            if (b3 <? locb) || (hicb <? b3) then (RuneError, 1) else
            (Z.lor (Z.lor (Z.lor (Z.shiftl (Z.land b0 mask4) 18)
                                 (Z.shiftl (Z.land b1 maskx) 12))
                          (Z.shiftl (Z.land b2 maskx) 6))
                   (Z.land b3 maskx), 4)
          end
        end
      end
  end.

Definition RuneStart (b : Z) : bool := negb (Z.land b 192 =? 128).

(** The loop [for start--; start >= lim; start-- { if RuneStart(s[start]) { break } }]
    of [DecodeLastRuneInString], run at most [fuel] times. *)
Fixpoint backToStart (fuel : nat) (s : list Z) (start lim : Z) : Z :=
  match fuel with
  | O => start
  | S fuel' =>
    if start <? lim then start
    else if RuneStart (nth (Z.to_nat start) s 0) then start
    else backToStart fuel' s (start - 1) lim
  end.

(** [DecodeLastRuneInString]: the last rune of [s] and its width. *)
Definition DecodeLastRuneInString (s : list Z) : Z * Z :=
  let end_ := len s in
  if end_ =? 0 then (RuneError, 0) else
  let start := end_ - 1 in
  let r := nth (Z.to_nat start) s 0 in
  if r <? RuneSelf then (r, 1) else
  let lim := Z.max 0 (end_ - UTFMax) in
  let start := backToStart 4 s (start - 1) lim in
  let start := Z.max 0 start in
  let '(r, size) := DecodeRuneInString (skipn (Z.to_nat start) s) in
  if negb (start + size =? end_) then (RuneError, 1) else (r, size).

End Utf8.

(** ** unicode *)
Module Unicode.

Definition MaxLatin1 : Z := 255.

(** The [White_Space] range table, beyond Latin-1. *)
Definition White_Space_excludingLatin (r : Z) : bool :=
  (r =? 5760) || ((8192 <=? r) && (r <=? 8202)) || (r =? 8232) || (r =? 8233)
  || (r =? 8239) || (r =? 8287) || (r =? 12288).

Definition IsSpace (r : Z) : bool :=
  if r <=? MaxLatin1 then
    (r =? 9) || (r =? 10) || (r =? 11) || (r =? 12) || (r =? 13) || (r =? 32)
    || (r =? 133) || (r =? 160)
  else White_Space_excludingLatin r.

End Unicode.

(** ** strings *)
Module Strings.

(** [indexFunc(s, f, truth)]: the byte index of the first rune [r] of [s]
    with [f r = truth], or [-1].  [i] is the index of the head of [s] in
    the whole string; each step consumes one rune, so [length s] steps
    are enough. *)
Fixpoint indexFunc_from (fuel : nat) (f : Z -> bool) (truth : bool)
         (s : list Z) (i : Z) : Z :=
  match fuel with
  | O => -1
  | S fuel' =>
    match s with
    | [] => -1
    | _ :: _ =>
      let '(r, wid) := Utf8.DecodeRuneInString s in
      if Bool.eqb (f r) truth then i
      else indexFunc_from fuel' f truth (skipn (Z.to_nat wid) s) (i + wid)
    end
  end.

Definition indexFunc (s : list Z) (f : Z -> bool) (truth : bool) : Z :=
  indexFunc_from (List.length s) f truth s 0.

(** [lastIndexFunc(s, f, truth)]: the loop
    [for i := len(s); i > 0; { r, size := DecodeLastRuneInString(s[0:i]); i -= size; ... }]. *)
Fixpoint lastIndexFunc_from (fuel : nat) (f : Z -> bool) (truth : bool)
         (s : list Z) (i : Z) : Z :=
  match fuel with
  | O => -1
  | S fuel' =>
    if i >? 0 then
      let '(r, size) := Utf8.DecodeLastRuneInString (firstn (Z.to_nat i) s) in
      let i := i - size in
      if Bool.eqb (f r) truth then i
      else lastIndexFunc_from fuel' f truth s i
    else -1
  end.

Definition lastIndexFunc (s : list Z) (f : Z -> bool) (truth : bool) : Z :=
  lastIndexFunc_from (S (List.length s)) f truth s (len s).

Definition TrimLeftFunc (s : string) (f : Z -> bool) : string :=
  let i := indexFunc (bytevals s) f false in
  if i =? -1 then "" else sslice s i (slen s).

Definition TrimRightFunc (s : string) (f : Z -> bool) : string :=
  let b := bytevals s in
  let i := lastIndexFunc b f false in
  let i :=
    if (0 <=? i) && (Utf8.RuneSelf <=? nth (Z.to_nat i) b 0) then
      i + snd (Utf8.DecodeRuneInString (skipn (Z.to_nat i) b))
    else i + 1 in
  sslice s 0 i.

Definition TrimFunc (s : string) (f : Z -> bool) : string :=
  TrimRightFunc (TrimLeftFunc s f) f.

(** [TrimSpace]: [s] without its leading and trailing white space, as
    Unicode defines it. *)
Definition TrimSpace (s : string) : string := TrimFunc s Unicode.IsSpace.

End Strings.

(** ** strconv *)
Module Strconv.

(** The [Err] field of a [*NumError]. *)
Inductive NumError := ErrSyntax | ErrRange.

Definition intSize : Z := 64.
Definition maxUint64 : Z := 2 ^ 64 - 1.

(** The digit loop of [ParseUint(s, 10, 64)]: the value so far is [n]. *)
Fixpoint ParseUint_loop (s : list Z) (n : Z) : Z * option NumError :=
  match s with
  | [] => (n, None)
  | c :: s' =>
    if (48 <=? c) && (c <=? 57) then
      let d := c - 48 in
      let cutoff := maxUint64 / 10 + 1 in
      if cutoff <=? n then (maxUint64, Some ErrRange)
      else
        let n := n * 10 in
        let n1 := (n + d) mod 2 ^ 64 in
        if (n1 <? n) || (maxUint64 <? n1) then (maxUint64, Some ErrRange)
        else ParseUint_loop s' n1
    else (0, Some ErrSyntax)
  end.

Definition ParseUint10 (s : list Z) : Z * option NumError :=
  match s with
  | [] => (0, Some ErrSyntax)
  | _ => ParseUint_loop s 0
  end.

(** [ParseInt(s, 10, 0)]. *)
Definition ParseInt10 (s : list Z) : Z * option NumError :=
  match s with
  | [] => (0, Some ErrSyntax)
  | c :: s' =>
    let neg := c =? 45 in
    let s1 := if (c =? 43) || (c =? 45) then s' else s in
    let '(un, err) := ParseUint10 s1 in
    match err with
    | Some ErrSyntax => (0, Some ErrSyntax)
    | _ =>
      let cutoff := 2 ^ 63 in
      if negb neg && (cutoff <=? un) then (cutoff - 1, Some ErrRange)
      else if neg && (cutoff <? un) then (- cutoff, Some ErrRange)
      else ((if neg then - un else un), None)
    end
  end.

(** The digit loop of the fast path of [Atoi]; [ch -= '0'] wraps around
    in a byte. *)
Fixpoint Atoi_fast_loop (s : list Z) (n : Z) : Z * option NumError :=
  match s with
  | [] => (n, None)
  | ch :: s' =>
    let ch := (ch - 48) mod 256 in
    if 9 <? ch then (0, Some ErrSyntax)
    else Atoi_fast_loop s' (n * 10 + ch)
  end.

(** [Atoi(s)]: the integer [s] denotes in base 10, and the error. *)
Definition Atoi (s : string) : Z * option NumError :=
  let b := bytevals s in
  let sLen := len b in
  if (intSize =? 64) && ((0 <? sLen) && (sLen <? 19)) then
    match b with
    | [] => (0, Some ErrSyntax)
    | c0 :: s' =>
      let signed := (c0 =? 45) || (c0 =? 43) in
      let s1 := if signed then s' else b in
      if signed && (len s1 <? 1) then (0, Some ErrSyntax)
      else
        match Atoi_fast_loop s1 0 with
        | (n, None) => ((if c0 =? 45 then - n else n), None)
        | (_, Some e) => (0, Some e)
        end
    end
  else ParseInt10 b.

End Strconv.

(** ** Errors *)

(** [syscall.Errno] and the error numbers the handlers use. *)
Definition Errno : Type := Z.
Definition EPERM : Errno := 1.
Definition ENOENT : Errno := 2.
Definition EIO : Errno := 5.
Definition EACCES : Errno := 13.
Definition EINVAL : Errno := 22.
Definition ENOTSUP : Errno := 95.

(** The values of Go's [error] interface that occur. *)
Inductive error :=
| IOerror (Code : Errno)       (* fuse.IOerror{Code: ...}, this repository's *)
| errorString (msg : string)   (* errors.New(msg), fmt.Errorf *)
| io_EOF                       (* io.EOF *)
| fuse_Errno (e : Errno)       (* bazil.org/fuse: fuse.EPERM, fuse.ENOTSUP *)
| hostError (e : Errno).       (* what host file I/O reports *)

#[global] Instance error_eq_dec : EqDecision error.
Proof. solve_decision. Defined.

Definition errors_New (msg : string) : error := errorString msg.

(** Go's [err != nil && err != io.EOF]. *)
Definition failed (err : option error) : bool :=
  match err with
  | None => false
  | Some e => negb (bool_decide (e = io_EOF))
  end.

Definition newline : string := String "010"%char EmptyString.

(** ** The world the handlers run in *)

(** [os.FileInfo], as far as [Lookup] hands it on. *)
Record FileInfo := { fi_name : string; fi_size : Z; fi_mode : Z }.

(** Modelled from the spec: the Container record of the state store, which
    is not among the sources.  "Holds a mapping from (resource-path,
    field-name) to virtualized value". *)
Record Container := { dataStore : gmap (string * string) string }.

(** Host file I/O, the external collaborator behind an IOnode: what opening
    a path with given flags, reading its first line and stat-ing it
    answer. *)
Record HostIO := {
  host_Open : string -> Z -> option error;
  host_ReadLine : string -> string * option error;
  host_Stat : string -> option FileInfo * option error
}.

(** Calls to the collaborators, in the order they happen.  [EvHostWrite] is
    what an IOnode's write would log. *)
Inductive Event :=
| EvFindPidNsInode (pid : Z)
| EvContainerLookupByPid (pid : Z)
| EvHostOpen (path : string) (flags : Z)
| EvHostReadLine (path : string)
| EvHostStat (path : string)
| EvHostWrite (path : string) (data : string).

Definition is_host_event (e : Event) : bool :=
  match e with
  | EvHostOpen _ _ | EvHostReadLine _ | EvHostStat _ | EvHostWrite _ _ => true
  | _ => false
  end.

Definition is_host_write (e : Event) : bool :=
  match e with EvHostWrite _ _ => true | _ => false end.

(** [containers]: the state store, from pid-namespace inode to Container.
    [pidNsInode]: the pid-namespace resolver ([0]: unresolvable). *)
Record World := {
  containers : gmap Z Container;
  pidNsInode : Z -> Z;
  host : HostIO;
  trace : list Event
}.

Definition set_trace (t : list Event) (w : World) : World :=
  {| containers := containers w; pidNsInode := pidNsInode w;
     host := host w; trace := t |}.

Definition set_containers (cs : gmap Z Container) (w : World) : World :=
  {| containers := cs; pidNsInode := pidNsInode w;
     host := host w; trace := trace w |}.

(** Code that reads and changes the world. *)
Definition M (A : Type) : Type := World -> A * World.

#[global] Instance M_ret : MRet M := fun A (a : A) w => (a, w).

#[global] Instance M_bind : MBind M :=
  fun A B (k : A -> M B) (m : M A) w => let '(a, w') := m w in k a w'.

Definition ret {A} (a : A) : M A := mret a.

Definition gets {A} (f : World -> A) : M A := fun w => (f w, w).

Definition modify (f : World -> World) : M unit := fun w => (tt, f w).

Definition log (e : Event) : M unit :=
  modify (fun w => set_trace (trace w ++ [e]) w).

(** A reference to a Container of the store: its pid-namespace inode. *)
Abbreviation ContainerRef := Z (only parsing).

(** The value a container holds for (path, name). *)
Definition cached (w : World) (c : ContainerRef) (path name : string) : option string :=
  match containers w !! c with
  | Some cntr => dataStore cntr !! (path, name)
  | None => None
  end.

(** The container a pid belongs to, if it is registered. *)
Definition container_of (w : World) (pid : Z) : option ContainerRef :=
  let inode := pidNsInode w pid in
  if inode =? 0 then None
  else match containers w !! inode with
       | Some _ => Some inode
       | None => None
       end.

(** Modelled from the spec: the state store's operations, which are not
    among the sources.  "ContainerLookupByPid(pid) -> Container | not found
    (resolves via pid-namespace inode, external collaborator computes the
    inode from the pid)", "Container.Data(path, field) -> (value, found)",
    "Container.SetData(path, field, value)". *)
Module State.

Definition ContainerLookupByPid (pid : Z) : M (option ContainerRef) :=
  log (EvContainerLookupByPid pid);;
  gets (fun w => container_of w pid).

Definition Data (c : ContainerRef) (path name : string) : M (string * bool) :=
  gets (fun w => match cached w c path name with
                 | Some v => (v, true)
                 | None => ("", false)
                 end).

Definition SetData (c : ContainerRef) (path name data : string) : M unit :=
  modify (fun w =>
    match containers w !! c with
    | Some cntr =>
      set_containers
        (<[c := {| dataStore := <[(path, name) := data]> (dataStore cntr) |}]>
           (containers w)) w
    | None => w
    end).

End State.

(** [h.Service.FindPidNsInode(pid)]. *)
Definition FindPidNsInode (pid : Z) : M Z :=
  log (EvFindPidNsInode pid);;
  gets (fun w => pidNsInode w pid).

(** [domain.IOnode]: the I/O abstraction of a file.  Its methods that touch
    the file go to the host. *)
Module IOnode.

Record t := { name : string; path : string; flags : Z }.

Definition Name (n : t) : string := name n.
Definition Path (n : t) : string := path n.
Definition OpenFlags (n : t) : Z := flags n.
Definition SetOpenFlags (n : t) (fl : Z) : t :=
  {| name := name n; path := path n; flags := fl |}.

Definition Open (n : t) : M (option error) :=
  log (EvHostOpen (path n) (flags n));;
  gets (fun w => host_Open (host w) (path n) (flags n)).

Definition ReadLine (n : t) : M (string * option error) :=
  log (EvHostReadLine (path n));;
  gets (fun w => host_ReadLine (host w) (path n)).

Definition Stat (n : t) : M (option FileInfo * option error) :=
  log (EvHostStat (path n));;
  gets (fun w => host_Stat (host w) (path n)).

End IOnode.

(** [syscall.O_RDONLY], [syscall.O_WRONLY]. *)
Definition O_RDONLY : Z := 0.
Definition O_WRONLY : Z := 1.

(** ** Handlers *)

(** What a handler's [Read] hands back: the caller's buffer as it is
    afterwards, the number of bytes, and the error. *)
Definition ReadResult : Type := list Byte.byte * Z * option error.

(** [copyResultBuffer(buf, result)], the helper of package implementations
    every [Read] ends with, is not among the sources: the handlers are
    stated for any such helper. *)
Class ResultCopier := {
  copyResultBuffer : list Byte.byte -> list Byte.byte -> ReadResult
}.

(** [domain.HandlerIface], the operations the adapter calls.  The [Service]
    back-reference of every handler struct is the [World] the operations
    run in; logging is left out. *)
Class Handler (H : Type) := {
  Lookup : H -> IOnode.t -> Z -> M (option FileInfo * option error);
  Open : H -> IOnode.t -> Z -> M (option error);
  Close : H -> IOnode.t -> M (option error);
  Read : H -> IOnode.t -> Z -> list Byte.byte -> Z -> M ReadResult;
  Write : H -> IOnode.t -> Z -> list Byte.byte -> M (Z * option error);
  GetName : H -> string;
  GetPath : H -> string;
  GetEnabled : H -> bool
}.

(** *** /proc/sys/fs/binfmt_misc/register *)
Module FsBinfmtRegisterHandler.

Record t := {
  Name : string; Path : string; Type_ : Z; Enabled : bool; Cacheable : bool
}.

Definition Lookup (h : t) (n : IOnode.t) (pid : Z)
  : M (option FileInfo * option error) :=
  ret (None, Some (IOerror ENOENT)).

Definition Open (h : t) (n : IOnode.t) (pid : Z) : M (option error) := ret None.

Definition Close (h : t) (n : IOnode.t) : M (option error) := ret None.

Definition Read (h : t) (n : IOnode.t) (pid : Z) (buf : list Byte.byte) (off : Z)
  : M ReadResult :=
  ret (buf, 0, None).

Definition Write (h : t) (n : IOnode.t) (pid : Z) (buf : list Byte.byte)
  : M (Z * option error) :=
  ret (0, None).

Definition SetEnabled (h : t) (val : bool) : t :=
  {| Name := Name h; Path := Path h; Type_ := Type_ h;
     Enabled := val; Cacheable := Cacheable h |}.

End FsBinfmtRegisterHandler.

#[global] Instance FsBinfmtRegisterHandler_Handler : Handler FsBinfmtRegisterHandler.t := {
  Lookup := FsBinfmtRegisterHandler.Lookup;
  Open := FsBinfmtRegisterHandler.Open;
  Close := FsBinfmtRegisterHandler.Close;
  Read := FsBinfmtRegisterHandler.Read;
  Write := FsBinfmtRegisterHandler.Write;
  GetName := FsBinfmtRegisterHandler.Name;
  GetPath := FsBinfmtRegisterHandler.Path;
  GetEnabled := FsBinfmtRegisterHandler.Enabled
}.

(** *** /proc/sys/kernel/panic_on_oops *)
Module KernelPanicOopsHandler.

Record t := {
  Name : string; Path : string; Type_ : Z; Enabled : bool; Cacheable : bool
}.

Definition Lookup (h : t) (n : IOnode.t) (pid : Z)
  : M (option FileInfo * option error) :=
  pidInode ← FindPidNsInode pid;
  if pidInode =? 0 then
    ret (None, Some (errors_New "Could not identify pidNsInode"))
  else IOnode.Stat n.

Definition Open (h : t) (n : IOnode.t) (pid : Z) : M (option error) :=
  let flags := IOnode.OpenFlags n in
  if negb (flags =? O_RDONLY) && negb (flags =? O_WRONLY) then
    ret (Some (IOerror EACCES))
  else
    err ← IOnode.Open n;
    match err with
    | Some _ => ret (Some (IOerror EIO))
    | None => ret None
    end.

Definition Close (h : t) (n : IOnode.t) : M (option error) := ret None.

Definition Read `{ResultCopier} (h : t) (n : IOnode.t) (pid : Z)
           (buf : list Byte.byte) (off : Z) : M ReadResult :=
  if off >? 0 then ret (buf, 0, Some io_EOF)
  else
    let name := IOnode.Name n in
    let path := IOnode.Path n in
    cntr ← State.ContainerLookupByPid pid;
    match cntr with
    | None => ret (buf, 0, Some (errors_New "Container not found"))
    | Some cntr =>
      '(data, ok) ← State.Data cntr path name;
      if negb ok then
        '(curHostVal, err) ← IOnode.ReadLine n;
        if failed err then ret (buf, 0, Some (IOerror EIO))
        else
          match snd (Strconv.Atoi curHostVal) with
          | Some _ => ret (buf, 0, Some (IOerror EINVAL))
          | None =>
            let data := curHostVal in
            State.SetData cntr path name data;;
            ret (copyResultBuffer buf (bytes_of_string (data ++ newline)))
          end
      else
        ret (copyResultBuffer buf (bytes_of_string (data ++ newline)))
    end.

Definition Write (h : t) (n : IOnode.t) (pid : Z) (buf : list Byte.byte)
  : M (Z * option error) :=
  let name := IOnode.Name n in
  let path := IOnode.Path n in
  let newVal := Strings.TrimSpace (string_of_bytes buf) in
  let '(newValInt, err) := Strconv.Atoi newVal in
  match err with
  | Some _ => ret (0, Some (IOerror EINVAL))
  | None =>
    if (newValInt <? 0) || (newValInt >? 1) then ret (0, Some (IOerror EINVAL))
    else
      cntr ← State.ContainerLookupByPid pid;
      match cntr with
      | None => ret (0, Some (errors_New "Container not found"))
      | Some cntr =>
        State.SetData cntr path name newVal;;
        ret (len buf, None)
      end
  end.

Definition SetEnabled (h : t) (val : bool) : t :=
  {| Name := Name h; Path := Path h; Type_ := Type_ h;
     Enabled := val; Cacheable := Cacheable h |}.

End KernelPanicOopsHandler.

#[global] Instance KernelPanicOopsHandler_Handler `{ResultCopier}
  : Handler KernelPanicOopsHandler.t := {
  Lookup := KernelPanicOopsHandler.Lookup;
  Open := KernelPanicOopsHandler.Open;
  Close := KernelPanicOopsHandler.Close;
  Read := KernelPanicOopsHandler.Read;
  Write := KernelPanicOopsHandler.Write;
  GetName := KernelPanicOopsHandler.Name;
  GetPath := KernelPanicOopsHandler.Path;
  GetEnabled := KernelPanicOopsHandler.Enabled
}.

(** *** The common handler *)
Module SysCommonHandler.

Record t := {
  Name : string; Path : string; Type_ : Z; Enabled : bool; Cacheable : bool
}.

Definition Lookup (h : t) (n : IOnode.t) (pid : Z)
  : M (option FileInfo * option error) :=
  pidInode ← FindPidNsInode pid;
  if pidInode =? 0 then
    ret (None, Some (errors_New "Could not identify pidNsInode"))
  else IOnode.Stat n.

Definition Open (h : t) (n : IOnode.t) (pid : Z) : M (option error) := ret None.

Definition Close (h : t) (n : IOnode.t) : M (option error) := ret None.

Definition Read (h : t) (n : IOnode.t) (pid : Z) (buf : list Byte.byte) (off : Z)
  : M ReadResult :=
  ret (buf, 0, None).

Definition Write (h : t) (n : IOnode.t) (pid : Z) (buf : list Byte.byte)
  : M (Z * option error) :=
  ret (0, None).

End SysCommonHandler.

#[global] Instance SysCommonHandler_Handler : Handler SysCommonHandler.t := {
  Lookup := SysCommonHandler.Lookup;
  Open := SysCommonHandler.Open;
  Close := SysCommonHandler.Close;
  Read := SysCommonHandler.Read;
  Write := SysCommonHandler.Write;
  GetName := SysCommonHandler.Name;
  GetPath := SysCommonHandler.Path;
  GetEnabled := SysCommonHandler.Enabled
}.

(** ** The FUSE file adapter (package fuse) *)

(** A handler of any of the types above, as the handler database hands it
    out. *)
Record HandlerIface := mkHandlerIface {
  h_type : Type;
  h_ops : Handler h_type;
  h_val : h_type
}.

Definition iface_Open (h : HandlerIface) := @Open (h_type h) (h_ops h) (h_val h).
Definition iface_Read (h : HandlerIface) := @Read (h_type h) (h_ops h) (h_val h).
Definition iface_Write (h : HandlerIface) := @Write (h_type h) (h_ops h) (h_val h).

(** A call either returns or panics (a nil dereference, a slice out of
    range). *)
Inductive Outcome (A : Type) :=
| Done (a : A)
| Panic.
Arguments Done {A} a.
Arguments Panic {A}.

(** A Go [[]byte]: the backing array from the slice's first byte up to its
    capacity, and the length. *)
Record Slice := { arr : list Byte.byte; length_ : Z }.

Definition contents (s : Slice) : list Byte.byte := firstn (Z.to_nat (length_ s)) (arr s).

(** [s[:n]]. *)
Definition reslice (s : Slice) (n : Z) : Outcome Slice :=
  if (0 <=? n) && (n <=? len (arr s)) then Done {| arr := arr s; length_ := n |}
  else Panic.

(** What bazil.org/fuse defines. *)
Module Fuse.

Definition EPERM : error := fuse_Errno EPERM.
Definition ENOTSUP : error := fuse_Errno ENOTSUP.

(** [OpenResponseFlags]. *)
Definition OpenDirectIO : Z := Z.shiftl 1 0.

(** [SetattrValid] and its bits. *)
Definition SetattrMode : Z := Z.shiftl 1 0.
Definition SetattrUid : Z := Z.shiftl 1 1.
Definition SetattrGid : Z := Z.shiftl 1 2.
Definition SetattrSize : Z := Z.shiftl 1 3.
Definition SetattrAtime : Z := Z.shiftl 1 4.
Definition SetattrMtime : Z := Z.shiftl 1 5.

(** [func (fl SetattrValid) Size() bool]. *)
Definition SetattrValid_Size (fl : Z) : bool := negb (Z.land fl SetattrSize =? 0).

Record Attr := {
  Inode : Z; Size : Z; Mode : Z; Nlink : Z; Uid : Z; Gid : Z
}.

Record OpenRequest := { open_Flags : Z; open_Pid : Z }.
Record OpenResponse := { openresp_Flags : Z }.

Record ReadRequest := { read_Pid : Z; read_Size : Z; read_Offset : Z }.
Record ReadResponse := { read_Data : Slice }.

Record WriteRequest := { write_Pid : Z; write_Data : list Byte.byte }.
Record WriteResponse := { write_Size : Z }.

Record SetattrRequest := {
  Valid : Z; setattr_Size : Z; setattr_Mode : Z;
  setattr_Uid : Z; setattr_Gid : Z; setattr_Pid : Z
}.
Record SetattrResponse := { setattr_Attr : Attr }.

End Fuse.

Module File.

(** The [service] back-reference gives the handler database: it is the
    [LookupHandler] below. *)
Record t := {
  name : string;
  path : string;
  attr : Fuse.Attr;
  ionode : option IOnode.t
}.

Definition set_ionode (f : t) (n : IOnode.t) : t :=
  {| name := name f; path := path f; attr := attr f; ionode := Some n |}.

Definition noHandler (f : t) : error :=
  errorString ("No supported handler for " ++ path f ++ " resource").

Section Operations.

(** [f.service.hds.LookupHandler]: the handler database, which is not
    among the sources. *)
Variable LookupHandler : IOnode.t -> option HandlerIface.

(** [Open]: the file as it is afterwards, the response, the handle and
    the error. *)
Definition Open (f : t) (req : Fuse.OpenRequest) (resp : Fuse.OpenResponse)
  : M (Outcome (t * Fuse.OpenResponse * option t * option error)) :=
  match ionode f with
  | None => ret Panic
  | Some n =>
    let n := IOnode.SetOpenFlags n (Fuse.open_Flags req) in
    let f := set_ionode f n in
    match LookupHandler n with
    | None => ret (Done (f, resp, None, Some (noHandler f)))
    | Some handler =>
      err ← iface_Open handler n (Fuse.open_Pid req);
      if failed err then ret (Done (f, resp, None, err))
      else
        let resp := {| Fuse.openresp_Flags :=
                         Z.lor (Fuse.openresp_Flags resp) Fuse.OpenDirectIO |} in
        ret (Done (f, resp, Some f, None))
    end
  end.

Definition Read (f : t) (req : Fuse.ReadRequest) (resp : Fuse.ReadResponse)
  : M (Outcome (Fuse.ReadResponse * option error)) :=
  match ionode f with
  | None => ret (Done (resp, Some Fuse.ENOTSUP))
  | Some n =>
    match reslice (Fuse.read_Data resp) (Fuse.read_Size req) with
    | Panic => ret Panic
    | Done data =>
      match LookupHandler n with
      | None => ret (Done ({| Fuse.read_Data := data |}, Some (noHandler f)))
      | Some handler =>
        '(buf, cnt, err) ← iface_Read handler n (Fuse.read_Pid req)
                             (contents data) (Fuse.read_Offset req);
        let data := {| arr := buf ++ skipn (Z.to_nat (length_ data)) (arr data);
                       length_ := length_ data |} in
        if failed err then ret (Done ({| Fuse.read_Data := data |}, err))
        else
          match reslice data cnt with
          | Panic => ret Panic
          | Done data => ret (Done ({| Fuse.read_Data := data |}, None))
          end
      end
    end
  end.

Definition Write (f : t) (req : Fuse.WriteRequest) (resp : Fuse.WriteResponse)
  : M (Fuse.WriteResponse * option error) :=
  match ionode f with
  | None => ret (resp, Some Fuse.ENOTSUP)
  | Some n =>
    match LookupHandler n with
    | None => ret (resp, Some (noHandler f))
    | Some handler =>
      '(cnt, err) ← iface_Write handler n (Fuse.write_Pid req) (Fuse.write_Data req);
      if failed err then ret (resp, err)
      else ret ({| Fuse.write_Size := cnt |}, None)
    end
  end.

(** [Setattr]: the file and the response as they are afterwards, and the
    error. *)
Definition Setattr (f : t) (req : Fuse.SetattrRequest) (resp : Fuse.SetattrResponse)
  : M (t * Fuse.SetattrResponse * option error) :=
  if Fuse.SetattrValid_Size (Fuse.Valid req) then ret (f, resp, None)
  else ret (f, resp, Some Fuse.EPERM).

End Operations.

End File.

(** ** Vocabulary of the properties *)

(** The world after the collaborator calls [es], and nothing else. *)
Definition logged (es : list Event) (w : World) : World :=
  set_trace (trace w ++ es) w.

(** The trimmed content of a written buffer. *)
Definition trimmed (buf : list Byte.byte) : string :=
  Strings.TrimSpace (string_of_bytes buf).

(** [s] parses as the integer [i]; [s] does not parse as an integer. *)
Definition parses_as (s : string) (i : Z) : Prop := Strconv.Atoi s = (i, None).
Definition non_numeric (s : string) : Prop := snd (Strconv.Atoi s) <> None.

(** A byte that is ASCII white space; an ASCII byte that is not. *)
Definition ascii_space (b : Z) : bool :=
  Unicode.IsSpace b && (b <? Utf8.RuneSelf) && (0 <=? b).
Definition ascii_nonspace (b : Z) : bool :=
  negb (Unicode.IsSpace b) && (b <? Utf8.RuneSelf) && (0 <=? b).

(** A string of ASCII white space only. *)
Definition spaces (s : string) : bool := forallb ascii_space (bytevals s).

(** A string that is empty, or starts and ends with ASCII bytes that are
    not white space. *)
Definition core_ok (s : string) : bool :=
  match bytevals s with
  | [] => true
  | b :: _ => ascii_nonspace b && ascii_nonspace (List.last (bytevals s) 0)
  end.

(** ** A concrete world, for the scenarios *)

(** The bytes a [Read] served: the first [n] bytes of the buffer. *)
Definition served (r : ReadResult) : string :=
  let '(buf, n, _) := r in string_of_bytes (firstn (Z.to_nat n) buf).

Module Scenario.

(** Modelled from the spec: [copyResultBuffer], which is not among the
    sources.  "Read(node, pid, length, offset) -> bytes": the result goes
    into the caller's buffer, as much of it as the buffer holds. *)
Definition copyPrefix (buf result : list Byte.byte) : ReadResult :=
  let length := if len buf <? len result then len buf else len result in
  ((firstn (Z.to_nat length) result ++ skipn (Z.to_nat length) buf)%list, length, None).

Definition copier : ResultCopier := {| copyResultBuffer := copyPrefix |}.

Fixpoint firstLine (s : string) : string :=
  match s with
  | EmptyString => EmptyString
  | String c s' => if Ascii.eqb c "010"%char then EmptyString else String c (firstLine s')
  end.

(** Modelled from the spec: host file I/O, "open/read/write/stat a path on
    the real filesystem; returns raw bytes or a POSIX-style error kind",
    over a table of file contents. *)
Definition hostOf (files : gmap string string) : HostIO := {|
  host_Open := fun path _ =>
    match files !! path with Some _ => None | None => Some (hostError ENOENT) end;
  host_ReadLine := fun path =>
    match files !! path with
    | Some c => (firstLine c, None)
    | None => ("", Some (hostError ENOENT))
    end;
  host_Stat := fun path =>
    match files !! path with
    | Some c => (Some {| fi_name := path; fi_size := 0; fi_mode := 420 |}, None)
    | None => (None, Some (hostError ENOENT))
    end
|}.

Definition oopsPath : string := "/proc/sys/kernel/panic_on_oops".

Definition node : IOnode.t :=
  {| IOnode.name := "panic_on_oops"; IOnode.path := oopsPath; IOnode.flags := O_RDONLY |}.

Definition handler : KernelPanicOopsHandler.t :=
  {| KernelPanicOopsHandler.Name := "kernelPanicOops";
     KernelPanicOopsHandler.Path := oopsPath;
     KernelPanicOopsHandler.Type_ := 0;
     KernelPanicOopsHandler.Enabled := true;
     KernelPanicOopsHandler.Cacheable := true |}.

Definition binfmt : FsBinfmtRegisterHandler.t :=
  {| FsBinfmtRegisterHandler.Name := "fsBinfmtRegister";
     FsBinfmtRegisterHandler.Path := "/proc/sys/fs/binfmt_misc/register";
     FsBinfmtRegisterHandler.Type_ := 0;
     FsBinfmtRegisterHandler.Enabled := true;
     FsBinfmtRegisterHandler.Cacheable := false |}.

Definition emptyContainer : Container := {| dataStore := ∅ |}.

(** Two containers; pids 100 and 101 run in the first, pid 200 in the
    second, any other pid in none. *)
Definition resolver (pid : Z) : Z :=
  if (pid =? 100) || (pid =? 101) then 4026532001
  else if pid =? 200 then 4026532002
  else 0.

Definition world0 (hostval : string) : World := {|
  containers := <[4026532001 := emptyContainer]> (<[4026532002 := emptyContainer]> ∅);
  pidNsInode := resolver;
  host := hostOf (<[oopsPath := hostval]> ∅);
  trace := []
|}.

(** A read buffer of 16 zero bytes. *)
Definition rbuf : list Byte.byte := repeat Byte.x00 16.

Definition read (pid : Z) (off : Z) : M ReadResult :=
  @KernelPanicOopsHandler.Read copier handler node pid rbuf off.

Definition write (pid : Z) (s : string) : M (Z * option error) :=
  KernelPanicOopsHandler.Write handler node pid (bytes_of_string s).

(** The host file holds 0; no container has a value yet. *)
Definition w0 : World := world0 ("0" ++ newline).

(** As [w0], after pid 100 wrote 1. *)
Definition w1 : World := snd (write 100 "1" w0).

(** The host file holds no number. *)
Definition wbad : World := world0 ("oops" ++ newline).

(** The host has no such file. *)
Definition wgone : World :=
  {| containers := containers w0; pidNsInode := resolver;
     host := hostOf ∅; trace := [] |}.

Definition file : File.t :=
  {| File.name := "panic_on_oops"; File.path := oopsPath;
     File.attr := {| Fuse.Inode := 1; Fuse.Size := 0; Fuse.Mode := 420;
                     Fuse.Nlink := 1; Fuse.Uid := 0; Fuse.Gid := 0 |};
     File.ionode := Some node |}.

Definition hds (n : IOnode.t) : option HandlerIface :=
  Some (mkHandlerIface KernelPanicOopsHandler.t
          (@KernelPanicOopsHandler_Handler copier) handler).

End Scenario.

(** * Properties *)

(** ** [strings.TrimSpace] on ASCII white space *)

Lemma decode_ascii b t :
  0 <= b < 128 -> Utf8.DecodeRuneInString (b :: t) = (b, 1).
Proof.
  intros Hb. unfold Utf8.DecodeRuneInString, Utf8.first.
  destruct (b <? 128) eqn:E; [|lia]. reflexivity.
Qed.

Lemma decodeLast_ascii l b :
  0 <= b < 128 -> Utf8.DecodeLastRuneInString (l ++ [b]) = (b, 1).
Proof.
  intros Hb. unfold Utf8.DecodeLastRuneInString.
  assert (Hl : len (l ++ [b]) = len l + 1).
  { unfold len. rewrite length_app. simpl. lia. }
  rewrite Hl.
  destruct (len l + 1 =? 0) eqn:E; [unfold len in *; lia|].
  replace (Z.to_nat (len l + 1 - 1)) with (List.length l) by (unfold len; lia).
  rewrite nth_middle. unfold Utf8.RuneSelf.
  destruct (b <? 128) eqn:E2; [done|lia].
Qed.

Lemma indexFunc_skip_spaces pre : forall rest fuel i,
  forallb ascii_space pre = true ->
  Strings.indexFunc_from (List.length pre + fuel) Unicode.IsSpace false (pre ++ rest) i
  = Strings.indexFunc_from fuel Unicode.IsSpace false rest (i + len pre).
Proof.
  induction pre as [|b pre IH]; intros rest fuel i Hsp.
  - simpl. f_equal. unfold len. simpl. lia.
  - simpl in Hsp. apply andb_true_iff in Hsp as [Hb Hpre].
    unfold ascii_space, Utf8.RuneSelf in Hb.
    apply andb_true_iff in Hb as [Hb H0]. apply andb_true_iff in Hb as [Hs H128].
    cbn [List.length Nat.add app Strings.indexFunc_from].
    rewrite decode_ascii by lia. rewrite Hs. cbn [Bool.eqb].
    change (skipn (Z.to_nat 1) (b :: pre ++ rest)%list) with (pre ++ rest)%list.
    rewrite IH by done. f_equal. unfold len. simpl List.length. lia.
Qed.

Lemma indexFunc_padded pre b rest :
  forallb ascii_space pre = true -> ascii_nonspace b = true ->
  Strings.indexFunc (pre ++ b :: rest)%list Unicode.IsSpace false = len pre.
Proof.
  intros Hpre Hb. unfold Strings.indexFunc.
  rewrite length_app. rewrite indexFunc_skip_spaces by done.
  unfold ascii_nonspace, Utf8.RuneSelf in Hb.
  apply andb_true_iff in Hb as [Hb H0]. apply andb_true_iff in Hb as [Hs H128].
  cbn [List.length Strings.indexFunc_from].
  rewrite decode_ascii by lia.
  apply negb_true_iff in Hs. rewrite Hs. cbn [Bool.eqb]. lia.
Qed.

Lemma indexFunc_all_spaces pre :
  forallb ascii_space pre = true ->
  Strings.indexFunc pre Unicode.IsSpace false = -1.
Proof.
  intros Hpre. unfold Strings.indexFunc.
  rewrite <- (app_nil_r pre) at 2.
  replace (List.length pre) with (List.length pre + 0)%nat by lia.
  by rewrite indexFunc_skip_spaces.
Qed.

Lemma len_app {A} (l1 l2 : list A) : len (l1 ++ l2)%list = len l1 + len l2.
Proof. unfold len. rewrite length_app. lia. Qed.

Lemma lastIndexFunc_skip_spaces core post : forall tail fuel,
  forallb ascii_space post = true ->
  Strings.lastIndexFunc_from (List.length post + fuel) Unicode.IsSpace false
    (core ++ post ++ tail)%list (len (core ++ post)%list)
  = Strings.lastIndexFunc_from fuel Unicode.IsSpace false
      (core ++ post ++ tail)%list (len core).
Proof.
  induction post as [|b p IH] using rev_ind; intros tail fuel Hsp.
  - simpl. by rewrite app_nil_r.
  - rewrite forallb_app in Hsp. apply andb_true_iff in Hsp as [Hp Hb].
    simpl in Hb. rewrite andb_true_r in Hb.
    unfold ascii_space, Utf8.RuneSelf in Hb.
    apply andb_true_iff in Hb as [Hb H0]. apply andb_true_iff in Hb as [Hs H128].
    rewrite length_app. simpl List.length.
    replace (List.length p + 1 + fuel)%nat with (S (List.length p + fuel)) by lia.
    cbn [Strings.lastIndexFunc_from].
    assert (Hlen : len (core ++ p ++ [b])%list = len (core ++ p)%list + 1).
    { rewrite !len_app. unfold len. simpl. lia. }
    rewrite Hlen.
    destruct (len (core ++ p)%list + 1 >? 0) eqn:E; [|unfold len in *; lia].
    assert (Hfirst : firstn (Z.to_nat (len (core ++ p)%list + 1))
                       (core ++ (p ++ [b]) ++ tail)%list = ((core ++ p) ++ [b])%list).
    { replace (core ++ (p ++ [b]) ++ tail)%list with (((core ++ p) ++ [b]) ++ tail)%list
        by (by rewrite <- !app_assoc).
      replace (Z.to_nat (len (core ++ p)%list + 1)) with (List.length ((core ++ p) ++ [b])%list).
      - by rewrite firstn_app, Nat.sub_diag, firstn_all, firstn_O, app_nil_r.
      - rewrite length_app. unfold len. simpl. lia. }
    rewrite Hfirst, decodeLast_ascii by lia.
    rewrite Hs. cbn [Bool.eqb].
    replace (len (core ++ p)%list + 1 - 1) with (len (core ++ p)%list) by lia.
    replace (core ++ (p ++ [b]) ++ tail)%list with (core ++ p ++ (b :: tail))%list
      by (by rewrite <- !app_assoc).
    by apply IH.
Qed.

Lemma lastIndexFunc_at_nonspace c b tail fuel :
  ascii_nonspace b = true ->
  Strings.lastIndexFunc_from (S fuel) Unicode.IsSpace false
    ((c ++ [b]) ++ tail)%list (len (c ++ [b])%list)
  = len c.
Proof.
  intros Hb. unfold ascii_nonspace, Utf8.RuneSelf in Hb.
  apply andb_true_iff in Hb as [Hb H0]. apply andb_true_iff in Hb as [Hs H128].
  apply negb_true_iff in Hs.
  cbn [Strings.lastIndexFunc_from].
  assert (Hlen : len (c ++ [b])%list = len c + 1).
  { rewrite len_app. unfold len. simpl. lia. }
  rewrite Hlen.
  destruct (len c + 1 >? 0) eqn:E; [|unfold len in *; lia].
  replace (Z.to_nat (len c + 1)) with (List.length (c ++ [b])%list)
    by (rewrite length_app; unfold len; simpl; lia).
  rewrite firstn_app, Nat.sub_diag, firstn_all, firstn_O, app_nil_r.
  rewrite decodeLast_ascii by lia. rewrite Hs. cbn [Bool.eqb]. lia.
Qed.

Lemma bytevals_app s1 s2 : bytevals (s1 ++ s2) = (bytevals s1 ++ bytevals s2)%list.
Proof.
  unfold bytevals. induction s1 as [|a s1 IH]; [done|].
  simpl. by rewrite IH.
Qed.

Lemma bytevals_length s : List.length (bytevals s) = String.length s.
Proof.
  unfold bytevals. rewrite length_map.
  induction s as [|a s IH]; [done|]. simpl. by rewrite IH.
Qed.

Lemma len_bytevals s : len (bytevals s) = slen s.
Proof. unfold len, slen. by rewrite bytevals_length. Qed.

Lemma substring_0_0 s : substring 0 0 s = "".
Proof. by destruct s. Qed.

Lemma substring_prefix s1 s2 : substring 0 (String.length s1) (s1 ++ s2) = s1.
Proof.
  induction s1 as [|a s1 IH]; simpl; [apply substring_0_0|]. by rewrite IH.
Qed.

Lemma substring_all s : substring 0 (String.length s) s = s.
Proof. induction s as [|a s IH]; simpl; [done|]. by rewrite IH. Qed.

Lemma substring_skip s1 s2 k :
  substring (String.length s1) k (s1 ++ s2) = substring 0 k s2.
Proof. induction s1 as [|a s1 IH]; simpl; done. Qed.

Lemma string_length_app s1 s2 :
  String.length (s1 ++ s2) = (String.length s1 + String.length s2)%nat.
Proof. induction s1 as [|a s1 IH]; simpl; [done|]. by rewrite IH. Qed.

Lemma TrimLeftFunc_padded pre core post :
  spaces pre = true -> core_ok core = true -> core <> "" ->
  Strings.TrimLeftFunc (pre ++ core ++ post) Unicode.IsSpace = core ++ post.
Proof.
  intros Hpre Hcore Hne. unfold Strings.TrimLeftFunc.
  rewrite !bytevals_app.
  unfold core_ok in Hcore.
  destruct (bytevals core) as [|b t] eqn:Hb.
  { destruct core; [done|]. discriminate Hb. }
  apply andb_true_iff in Hcore as [Hfirst _].
  change ((b :: t) ++ bytevals post)%list with (b :: (t ++ bytevals post))%list.
  rewrite indexFunc_padded by done.
  destruct (len (bytevals pre) =? -1) eqn:E.
  { apply Z.eqb_eq in E. unfold len in E. lia. }
  unfold sslice. rewrite len_bytevals. unfold slen.
  rewrite Nat2Z.id.
  rewrite substring_skip.
  replace (Z.to_nat _) with (String.length (core ++ post)).
  - apply substring_all.
  - rewrite !string_length_app. lia.
Qed.

Lemma TrimLeftFunc_all_spaces s :
  spaces s = true -> Strings.TrimLeftFunc s Unicode.IsSpace = "".
Proof.
  intros Hs. unfold Strings.TrimLeftFunc. by rewrite indexFunc_all_spaces.
Qed.

Lemma TrimRightFunc_padded core post :
  core_ok core = true -> spaces post = true ->
  Strings.TrimRightFunc (core ++ post) Unicode.IsSpace = core.
Proof.
  intros Hcore Hpost. unfold Strings.TrimRightFunc, Strings.lastIndexFunc.
  rewrite bytevals_app.
  replace (S (List.length (bytevals core ++ bytevals post)%list))
    with (List.length (bytevals post) + S (List.length (bytevals core)))%nat
    by (rewrite length_app; lia).
  pose proof (lastIndexFunc_skip_spaces (bytevals core) (bytevals post) []
                (S (List.length (bytevals core))) Hpost) as Hskip.
  rewrite app_nil_r in Hskip. rewrite Hskip. clear Hskip.
  assert (Hfinal :
    (let i := Strings.lastIndexFunc_from (S (List.length (bytevals core)))
                Unicode.IsSpace false (bytevals core ++ bytevals post)%list
                (len (bytevals core)) in
     if (0 <=? i) && (Utf8.RuneSelf <=? nth (Z.to_nat i) (bytevals core ++ bytevals post)%list 0)
     then i + snd (Utf8.DecodeRuneInString
                     (skipn (Z.to_nat i) (bytevals core ++ bytevals post)%list))
     else i + 1) = slen core).
  { unfold core_ok in Hcore.
    destruct (bytevals core) as [|b0 t] eqn:Hb.
    - destruct core; [|discriminate Hb]. reflexivity.
    - apply andb_true_iff in Hcore as [_ Hlast].
      destruct (exists_last (l := b0 :: t) ltac:(discriminate)) as (c & b & Hcb).
      rewrite Hcb in Hlast |- *. rewrite last_last in Hlast.
      assert (Hlen : len (c ++ [b])%list = slen core).
      { rewrite <- len_bytevals, Hb, Hcb. done. }
      replace (S (List.length (c ++ [b])%list)) with (S (S (List.length c)))
        by (rewrite length_app; simpl; lia).
      rewrite lastIndexFunc_at_nonspace by done. cbv zeta.
      replace (Z.to_nat (len c)) with (List.length c) by (unfold len; lia).
      rewrite <- app_assoc.
      change ([b] ++ bytevals post)%list with (b :: bytevals post).
      rewrite nth_middle.
      unfold ascii_nonspace in Hlast.
      apply andb_true_iff in Hlast as [Hl _]. apply andb_true_iff in Hl as [_ Hl].
      assert (E : (Utf8.RuneSelf <=? b) = false) by lia.
      rewrite E, andb_false_r. rewrite <- Hlen, len_app. unfold len. simpl. lia. }
  cbv zeta in Hfinal. rewrite Hfinal.
  unfold sslice, slen. rewrite Z.sub_0_r, Nat2Z.id. simpl Z.to_nat.
  apply substring_prefix.
Qed.

(** [TrimSpace] takes ASCII white space off both ends of a string whose
    core starts and ends with ASCII bytes that are not white space. *)
Lemma TrimSpace_padded pre core post :
  spaces pre = true -> spaces post = true -> core_ok core = true ->
  Strings.TrimSpace (pre ++ core ++ post) = core.
Proof.
  intros Hpre Hpost Hcore. unfold Strings.TrimSpace, Strings.TrimFunc.
  destruct core as [|a core'] eqn:Ec.
  - rewrite TrimLeftFunc_all_spaces.
    + reflexivity.
    + change ("" ++ post) with post. unfold spaces in *.
      by rewrite bytevals_app, forallb_app, Hpre, Hpost.
  - rewrite <- Ec in *. rewrite TrimLeftFunc_padded; [|done|done|by rewrite Ec].
    by apply TrimRightFunc_padded.
Qed.

(** ** How the collaborators run *)

Lemma run_ContainerLookupByPid pid w :
  State.ContainerLookupByPid pid w
  = (container_of w pid, logged [EvContainerLookupByPid pid] w).
Proof. reflexivity. Qed.

Lemma run_ReadLine n w :
  IOnode.ReadLine n w
  = (host_ReadLine (host w) (IOnode.path n), logged [EvHostReadLine (IOnode.path n)] w).
Proof. reflexivity. Qed.

Lemma run_Open n w :
  IOnode.Open n w
  = (host_Open (host w) (IOnode.path n) (IOnode.flags n),
     logged [EvHostOpen (IOnode.path n) (IOnode.flags n)] w).
Proof. reflexivity. Qed.

Lemma logged_logged es1 es2 w :
  logged es2 (logged es1 w) = logged (es1 ++ es2) w.
Proof. unfold logged, set_trace. simpl. by rewrite <- app_assoc. Qed.

Lemma cached_logged es w c path name :
  cached (logged es w) c path name = cached w c path name.
Proof. reflexivity. Qed.


Lemma container_of_Some w pid c :
  container_of w pid = Some c -> exists cntr, containers w !! c = Some cntr.
Proof.
  unfold container_of. destruct (pidNsInode w pid =? 0); [done|].
  destruct (containers w !! pidNsInode w pid) as [cntr|] eqn:E; [|done].
  intros [= <-]. by exists cntr.
Qed.

(** [SetData] on a container of the store: the value is there afterwards,
    every other value of every container is as before. *)
Lemma SetData_cached w c path name data cntr :
  containers w !! c = Some cntr ->
  cached (snd (State.SetData c path name data w)) c path name = Some data.
Proof.
  intros E. unfold State.SetData, modify, cached. simpl. rewrite E. simpl.
  rewrite lookup_insert_eq. simpl. by rewrite lookup_insert_eq.
Qed.

Lemma SetData_other_container w c c' path name data :
  c' <> c ->
  containers (snd (State.SetData c path name data w)) !! c' = containers w !! c'.
Proof.
  intros Hne. unfold State.SetData, modify. simpl.
  destruct (containers w !! c); [|done]. simpl. by rewrite lookup_insert_ne.
Qed.

Lemma SetData_other_key w c path name data p' n' :
  (p', n') <> (path, name) ->
  cached (snd (State.SetData c path name data w)) c p' n' = cached w c p' n'.
Proof.
  intros Hne. unfold State.SetData, modify, cached. simpl.
  destruct (containers w !! c) as [cntr|] eqn:E; simpl; [|by rewrite ?E].
  rewrite ?lookup_insert_eq. simpl. by rewrite lookup_insert_ne.
Qed.

Lemma SetData_frame w c path name data :
  host (snd (State.SetData c path name data w)) = host w
  /\ trace (snd (State.SetData c path name data w)) = trace w
  /\ pidNsInode (snd (State.SetData c path name data w)) = pidNsInode w.
Proof.
  unfold State.SetData, modify. simpl. by destruct (containers w !! c).
Qed.

Lemma SetData_container_of w c path name data pid :
  container_of (snd (State.SetData c path name data w)) pid = container_of w pid.
Proof.
  unfold container_of, State.SetData, modify. simpl.
  destruct (containers w !! c) as [cntr|] eqn:E; [|done]. simpl.
  destruct (pidNsInode w pid =? 0); [done|].
  destruct (decide (pidNsInode w pid = c)) as [Heq|Hne].
  - rewrite Heq. by rewrite lookup_insert_eq, E.
  - by rewrite lookup_insert_ne.
Qed.

(** ** The bits of [SetattrValid] *)

Lemma SetattrValid_Size_testbit (fl : Z) :
  Fuse.SetattrValid_Size fl = Z.testbit fl 3.
Proof.
  unfold Fuse.SetattrValid_Size, Fuse.SetattrSize.
  change (Z.shiftl 1 3) with (2 ^ 3).
  destruct (Z.testbit fl 3) eqn:Hb.
  - destruct (Z.land fl (2 ^ 3) =? 0) eqn:E; [|done].
    apply Z.eqb_eq in E.
    assert (Hc : Z.testbit (Z.land fl (2 ^ 3)) 3 = true).
    { rewrite Z.land_spec, Hb, Z.pow2_bits_true; [done|lia]. }
    rewrite E in Hc. by rewrite Z.bits_0 in Hc.
  - assert (E : Z.land fl (2 ^ 3) = 0).
    { apply Z.bits_inj'. intros k Hk. rewrite Z.land_spec, Z.bits_0.
      destruct (decide (k = 3)) as [->|Hne].
      - by rewrite Hb.
      - rewrite (Z.pow2_bits_false 3 k) by lia. apply andb_false_r. }
    by rewrite E.
Qed.

(** ** The claims *)

(** C9. [FsBinfmtRegisterHandler.Lookup] answers ENOENT, and no file
    information, for every node and every pid, in every world, and touches
    nothing. *)
Theorem binfmt_register_Lookup_ENOENT
        (h : FsBinfmtRegisterHandler.t) (n : IOnode.t) (pid : Z) (w : World) :
  Lookup h n pid w = ((None, Some (IOerror ENOENT)), w).
Proof. reflexivity. Qed.

(** C8. [File.Setattr] succeeds exactly on the requests whose valid-mask
    has the size bit, answers EPERM on all others, and in both cases
    leaves the file, the response and the world as they are. *)
Theorem Setattr_size_only
        (f : File.t)
        (req : Fuse.SetattrRequest) (resp : Fuse.SetattrResponse) (w : World) :
  File.Setattr f req resp w
  = ((f, resp, if Z.testbit (Fuse.Valid req) 3 then None else Some Fuse.EPERM), w).
Proof.
  unfold File.Setattr. rewrite SetattrValid_Size_testbit.
  by destruct (Z.testbit (Fuse.Valid req) 3).
Qed.

(** C6. At any offset above 0, [Read] on kernel_panic_oops hands back 0
    bytes and io.EOF, for any pid, without a call to the state store or
    the host (the world, its trace included, is as before); the adapter's
    [File.Read] turns that into an empty response and no error. *)
Theorem Read_beyond_start_EOF `{ResultCopier}
        (h : KernelPanicOopsHandler.t) (n : IOnode.t) (pid : Z)
        (buf : list Byte.byte) (off : Z) (w : World) :
  0 < off ->
  KernelPanicOopsHandler.Read h n pid buf off w = ((buf, 0, Some io_EOF), w)
  /\ forall (hds : IOnode.t -> option HandlerIface) (f : File.t)
            (req : Fuse.ReadRequest) (resp : Fuse.ReadResponse),
       File.ionode f = Some n ->
       hds n = Some (mkHandlerIface _ _ h) ->
       Fuse.read_Pid req = pid ->
       Fuse.read_Offset req = off ->
       0 <= Fuse.read_Size req <= len (arr (Fuse.read_Data resp)) ->
       File.Read hds f req resp w
       = (Done ({| Fuse.read_Data :=
                     {| arr := arr (Fuse.read_Data resp); length_ := 0 |} |}, None), w).
Proof.
  intros Hoff.
  assert (Hread : forall b, KernelPanicOopsHandler.Read h n pid b off w
                            = ((b, 0, Some io_EOF), w)).
  { intros b. unfold KernelPanicOopsHandler.Read.
    destruct (off >? 0) eqn:E; [done|]. lia. }
  split; [apply Hread|].
  intros hds f req resp Hn Hh Hpid Hoffs Hsize.
  unfold File.Read. rewrite Hn. unfold reslice at 1.
  destruct ((0 <=? Fuse.read_Size req) && (Fuse.read_Size req <=? len (arr (Fuse.read_Data resp)))) eqn:E.
  2:{ apply andb_false_iff in E. destruct E as [E|E]; lia. }
  rewrite Hh. unfold iface_Read. simpl h_val. simpl h_ops. simpl h_type.
  rewrite Hpid, Hoffs.
  change (@Read KernelPanicOopsHandler.t KernelPanicOopsHandler_Handler)
    with (@KernelPanicOopsHandler.Read H).
  unfold mbind, M_bind. rewrite Hread. simpl.
  unfold contents. simpl. rewrite firstn_skipn.
  unfold reslice. simpl.
  destruct (0 <=? len (arr (Fuse.read_Data resp))) eqn:E2; [done|].
  unfold len in *. lia.
Qed.

(** C7. [Open] on kernel_panic_oops answers EACCES when the flags are neither
    O_RDONLY nor O_WRONLY, without touching the host; with such flags it
    answers EIO when the host open fails and succeeds otherwise.  Through
    the adapter a rejected open hands out no handle, so nothing can be read
    or written through it, and leaves every container as it is. *)
Theorem Open_checks_flags
        (h : KernelPanicOopsHandler.t) (n : IOnode.t) (pid : Z) (w : World) :
  (IOnode.OpenFlags n <> O_RDONLY -> IOnode.OpenFlags n <> O_WRONLY ->
     KernelPanicOopsHandler.Open h n pid w = (Some (IOerror EACCES), w))
  /\ (IOnode.OpenFlags n = O_RDONLY \/ IOnode.OpenFlags n = O_WRONLY ->
      KernelPanicOopsHandler.Open h n pid w
      = (match host_Open (host w) (IOnode.Path n) (IOnode.OpenFlags n) with
         | Some _ => Some (IOerror EIO)
         | None => None
         end,
         logged [EvHostOpen (IOnode.Path n) (IOnode.OpenFlags n)] w))
  /\ (forall `{ResultCopier} (hds : IOnode.t -> option HandlerIface) (f : File.t)
             (n0 : IOnode.t) (req : Fuse.OpenRequest) (resp : Fuse.OpenResponse) e w',
        File.ionode f = Some n0 ->
        n = IOnode.SetOpenFlags n0 (Fuse.open_Flags req) ->
        hds n = Some (mkHandlerIface _ _ h) ->
        Fuse.open_Pid req = pid ->
        KernelPanicOopsHandler.Open h n pid w = (Some e, w') ->
        File.Open hds f req resp w = (Done (File.set_ionode f n, resp, None, Some e), w')
        /\ containers w' = containers w
        /\ (e = IOerror EACCES \/ e = IOerror EIO)).
Proof.
  assert (Hacc : IOnode.OpenFlags n <> O_RDONLY -> IOnode.OpenFlags n <> O_WRONLY ->
                 KernelPanicOopsHandler.Open h n pid w = (Some (IOerror EACCES), w)).
  { intros H0 H1. unfold KernelPanicOopsHandler.Open.
    destruct (IOnode.OpenFlags n =? O_RDONLY) eqn:E0; [lia|].
    destruct (IOnode.OpenFlags n =? O_WRONLY) eqn:E1; [lia|]. done. }
  assert (Hok : IOnode.OpenFlags n = O_RDONLY \/ IOnode.OpenFlags n = O_WRONLY ->
      KernelPanicOopsHandler.Open h n pid w
      = (match host_Open (host w) (IOnode.Path n) (IOnode.OpenFlags n) with
         | Some _ => Some (IOerror EIO)
         | None => None
         end,
         logged [EvHostOpen (IOnode.Path n) (IOnode.OpenFlags n)] w)).
  { intros Hfl. unfold KernelPanicOopsHandler.Open.
    assert (E : negb (IOnode.OpenFlags n =? O_RDONLY) && negb (IOnode.OpenFlags n =? O_WRONLY) = false).
    { destruct Hfl as [-> | ->]; done. }
    rewrite E. unfold mbind, M_bind. rewrite run_Open.
    unfold IOnode.Path, IOnode.OpenFlags.
    by destruct (host_Open (host w) (IOnode.path n) (IOnode.flags n)). }
  split; [exact Hacc|]. split; [exact Hok|].
  intros RC hds f n0 req resp e w' Hn0 Hn Hh Hpid Hopen.
  assert (Hcases : (e = IOerror EACCES \/ e = IOerror EIO) /\ containers w' = containers w).
  { destruct (decide (IOnode.OpenFlags n = O_RDONLY \/ IOnode.OpenFlags n = O_WRONLY)) as [Hfl|Hfl].
    - rewrite (Hok Hfl) in Hopen.
      destruct (host_Open (host w) (IOnode.Path n) (IOnode.OpenFlags n)); [|done].
      injection Hopen as <- <-. by split; [right|].
    - rewrite Hacc in Hopen by tauto. injection Hopen as <- <-. by split; [left|]. }
  destruct Hcases as [He Hc]. split; [|by split].
  unfold File.Open. rewrite Hn0, <- Hn, Hh.
  unfold iface_Open. simpl h_val. simpl h_ops. simpl h_type. rewrite Hpid.
  change (@Open KernelPanicOopsHandler.t KernelPanicOopsHandler_Handler)
    with KernelPanicOopsHandler.Open.
  unfold mbind, M_bind. rewrite Hopen.
  by destruct He as [-> | ->].
Qed.

(** ** [Read] and [Write] of kernel_panic_oops, case by case *)

Section KernelPanicOops.

Context `{ResultCopier}.
Variables (h : KernelPanicOopsHandler.t) (n : IOnode.t).

Local Abbreviation path := (IOnode.Path n).
Local Abbreviation name := (IOnode.Name n).

Lemma Read_unregistered pid buf off w :
  off <= 0 -> container_of w pid = None ->
  KernelPanicOopsHandler.Read h n pid buf off w
  = ((buf, 0, Some (errors_New "Container not found")),
     logged [EvContainerLookupByPid pid] w).
Proof.
  intros Hoff Hc. unfold KernelPanicOopsHandler.Read.
  destruct (off >? 0) eqn:E; [lia|].
  unfold mbind, M_bind. rewrite run_ContainerLookupByPid, Hc. done.
Qed.

Lemma Read_hit pid buf off w c v :
  off <= 0 -> container_of w pid = Some c -> cached w c path name = Some v ->
  KernelPanicOopsHandler.Read h n pid buf off w
  = (copyResultBuffer buf (bytes_of_string (v ++ newline)),
     logged [EvContainerLookupByPid pid] w).
Proof.
  intros Hoff Hc Hv. unfold KernelPanicOopsHandler.Read.
  destruct (off >? 0) eqn:E; [lia|].
  unfold mbind, M_bind. rewrite run_ContainerLookupByPid, Hc.
  unfold State.Data, gets. rewrite cached_logged.
  rewrite Hv. done.
Qed.

Lemma Read_miss pid buf off w c line err :
  off <= 0 -> container_of w pid = Some c -> cached w c path name = None ->
  host_ReadLine (host w) path = (line, err) ->
  KernelPanicOopsHandler.Read h n pid buf off w
  = if failed err then
      ((buf, 0, Some (IOerror EIO)),
       logged [EvContainerLookupByPid pid; EvHostReadLine path] w)
    else
      match snd (Strconv.Atoi line) with
      | Some _ =>
        ((buf, 0, Some (IOerror EINVAL)),
         logged [EvContainerLookupByPid pid; EvHostReadLine path] w)
      | None =>
        (copyResultBuffer buf (bytes_of_string (line ++ newline)),
         snd (State.SetData c path name line
                (logged [EvContainerLookupByPid pid; EvHostReadLine path] w)))
      end.
Proof.
  intros Hoff Hc Hv Hline. unfold KernelPanicOopsHandler.Read.
  destruct (off >? 0) eqn:E; [lia|].
  unfold mbind, M_bind. rewrite run_ContainerLookupByPid, Hc.
  unfold State.Data, gets. rewrite cached_logged.
  rewrite Hv. cbn [negb]. cbv beta iota.
  rewrite run_ReadLine, logged_logged. simpl app.
  change (host (logged [EvContainerLookupByPid pid] w)) with (host w).
  change (IOnode.path n) with path. rewrite Hline.
  destruct (failed err); [done|].
  destruct (snd (Strconv.Atoi line)); [done|].
  unfold State.SetData at 1, modify. done.
Qed.

Lemma Write_invalid pid buf w :
  non_numeric (trimmed buf)
  \/ (exists i, parses_as (trimmed buf) i /\ (i < 0 \/ 1 < i)) ->
  KernelPanicOopsHandler.Write h n pid buf w = ((0, Some (IOerror EINVAL)), w).
Proof.
  unfold non_numeric, parses_as, trimmed, KernelPanicOopsHandler.Write.
  intros [Hn | (i & Hi & Hr)].
  - destruct (Strconv.Atoi _) as [v [e|]]; [done|]. by destruct Hn.
  - rewrite Hi.
    destruct ((i <? 0) || (i >? 1)) eqn:E; [done|].
    apply orb_false_iff in E. lia.
Qed.

Lemma Write_valid pid buf w i :
  parses_as (trimmed buf) i -> i = 0 \/ i = 1 ->
  KernelPanicOopsHandler.Write h n pid buf w
  = match container_of w pid with
    | None => ((0, Some (errors_New "Container not found")),
               logged [EvContainerLookupByPid pid] w)
    | Some c => ((len buf, None),
                 snd (State.SetData c path name (trimmed buf)
                        (logged [EvContainerLookupByPid pid] w)))
    end.
Proof.
  unfold parses_as, trimmed, KernelPanicOopsHandler.Write.
  intros Hi Hr. rewrite Hi.
  destruct ((i <? 0) || (i >? 1)) eqn:E.
  { apply orb_true_iff in E. lia. }
  unfold mbind, M_bind. rewrite run_ContainerLookupByPid.
  destruct (container_of w pid); [|done].
  unfold State.SetData at 1, modify. done.
Qed.

(** A write that succeeds was a write of 0 or 1 by a registered pid. *)
Lemma Write_success_inv pid buf w r w1 :
  KernelPanicOopsHandler.Write h n pid buf w = ((r, None), w1) ->
  exists c i, container_of w pid = Some c /\ parses_as (trimmed buf) i
              /\ (i = 0 \/ i = 1) /\ r = len buf
              /\ w1 = snd (State.SetData c path name (trimmed buf)
                             (logged [EvContainerLookupByPid pid] w)).
Proof.
  intros Hw.
  destruct (Strconv.Atoi (trimmed buf)) as [i [e|]] eqn:Hi.
  - rewrite Write_invalid in Hw; [done|]. left. unfold non_numeric. by rewrite Hi.
  - destruct (decide (i = 0 \/ i = 1)) as [Hr|Hr].
    + rewrite (Write_valid _ _ _ i Hi Hr) in Hw.
      destruct (container_of w pid) as [c|]; [|done].
      injection Hw as <- <-. by exists c, i.
    + rewrite Write_invalid in Hw; [done|]. right. exists i. split; [done|lia].
Qed.

(** What a [Read] hands back depends on the world only through the pid's
    container, that container's value and the host. *)
Lemma Read_result_agree pid buf off w1 w2 :
  container_of w1 pid = container_of w2 pid ->
  (forall c, container_of w1 pid = Some c ->
             cached w1 c path name = cached w2 c path name) ->
  host w1 = host w2 ->
  fst (KernelPanicOopsHandler.Read h n pid buf off w1)
  = fst (KernelPanicOopsHandler.Read h n pid buf off w2).
Proof.
  intros Hc Hv Hh.
  destruct (decide (0 < off)) as [Hoff|Hoff].
  { unfold KernelPanicOopsHandler.Read. destruct (off >? 0) eqn:E; [done|lia]. }
  destruct (container_of w1 pid) as [c|] eqn:Hc1.
  - specialize (Hv c eq_refl). symmetry in Hc.
    destruct (cached w1 c path name) as [v|] eqn:Hv1.
    + rewrite (Read_hit pid buf off w1 c v), (Read_hit pid buf off w2 c v);
        [done|lia|done|done|lia|done|done].
    + destruct (host_ReadLine (host w1) path) as [line err] eqn:Hl.
      rewrite (Read_miss pid buf off w1 c line err),
              (Read_miss pid buf off w2 c line err);
        [|lia|done|done|by rewrite <- Hh|lia|done|done|done].
      destruct (failed err); [done|]. by destruct (snd (Strconv.Atoi line)).
  - symmetry in Hc.
    rewrite (Read_unregistered pid buf off w1), (Read_unregistered pid buf off w2);
      [done|lia|done|lia|done].
Qed.

End KernelPanicOops.

(** C1. A [Read] at offset 0 by a pid of a registered container: with a
    cached value [v] it hands back [v] and a newline and calls nothing but
    the container lookup; with no cached value it reads the host's first
    line once and, when the read yields a line, either seeds the cache
    with that line and hands it back with a newline (the line parses as an
    integer), or answers EINVAL and seeds nothing (it does not). *)
Theorem Read_resolves_value `{ResultCopier}
        (h : KernelPanicOopsHandler.t) (n : IOnode.t) (pid : Z)
        (buf : list Byte.byte) (w : World) (c : ContainerRef) :
  container_of w pid = Some c ->
  (forall v, cached w c (IOnode.Path n) (IOnode.Name n) = Some v ->
     KernelPanicOopsHandler.Read h n pid buf 0 w
     = (copyResultBuffer buf (bytes_of_string (v ++ newline)),
        logged [EvContainerLookupByPid pid] w))
  /\ (cached w c (IOnode.Path n) (IOnode.Name n) = None ->
      forall line err,
        host_ReadLine (host w) (IOnode.Path n) = (line, err) ->
        failed err = false ->
        (forall i, parses_as line i ->
           exists w',
             KernelPanicOopsHandler.Read h n pid buf 0 w
             = (copyResultBuffer buf (bytes_of_string (line ++ newline)), w')
             /\ cached w' c (IOnode.Path n) (IOnode.Name n) = Some line
             /\ trace w' = (trace w ++ [EvContainerLookupByPid pid;
                                        EvHostReadLine (IOnode.Path n)])%list
             /\ host w' = host w)
        /\ (non_numeric line ->
            KernelPanicOopsHandler.Read h n pid buf 0 w
            = ((buf, 0, Some (IOerror EINVAL)),
               logged [EvContainerLookupByPid pid; EvHostReadLine (IOnode.Path n)] w))).
Proof.
  intros Hc. split.
  - intros v Hv. by apply (Read_hit h n pid buf 0 w c v).
  - intros Hv line err Hline Herr.
    pose proof (Read_miss h n pid buf 0 w c line err) as Hm.
    rewrite Herr in Hm. specialize (Hm ltac:(lia) Hc Hv Hline).
    split.
    + intros i Hi. unfold parses_as in Hi. rewrite Hi in Hm. cbn [snd] in Hm.
      eexists. split; [exact Hm|].
      destruct (container_of_Some _ _ _ Hc) as [cntr Hcntr].
      split; [by apply (SetData_cached _ _ _ _ _ cntr)|].
      pose proof (SetData_frame (logged [EvContainerLookupByPid pid;
                                         EvHostReadLine (IOnode.Path n)] w)
                                c (IOnode.Path n) (IOnode.Name n) line) as (Hh & Ht & _).
      by rewrite Hh, Ht.
    + intros Hnn. unfold non_numeric in Hnn.
      destruct (snd (Strconv.Atoi line)); [exact Hm|done].
Qed.


(** C3. A [Write] that succeeds, by a pid of container [c]: the host is as
    before and the only collaborator call is the container lookup; every
    other container is as before; every other value of [c] is as before;
    and a [Read] by a pid of another container hands back what it would
    have handed back without the write, its own cached value if it has
    one. *)
Theorem Write_changes_one_entry `{ResultCopier}
        (h : KernelPanicOopsHandler.t) (n : IOnode.t) (pid : Z)
        (buf : list Byte.byte) (w w1 : World) (r : Z) :
  KernelPanicOopsHandler.Write h n pid buf w = ((r, None), w1) ->
  exists c,
    container_of w pid = Some c
    /\ host w1 = host w
    /\ trace w1 = (trace w ++ [EvContainerLookupByPid pid])%list
    /\ (forall c', c' <> c -> containers w1 !! c' = containers w !! c')
    /\ (forall p' n', (p', n') <> (IOnode.Path n, IOnode.Name n) ->
                      cached w1 c p' n' = cached w c p' n')
    /\ (forall pid' c' rbuf off,
          container_of w pid' = Some c' -> c' <> c ->
          container_of w1 pid' = Some c'
          /\ fst (KernelPanicOopsHandler.Read h n pid' rbuf off w1)
             = fst (KernelPanicOopsHandler.Read h n pid' rbuf off w)
          /\ forall v, cached w c' (IOnode.Path n) (IOnode.Name n) = Some v ->
                       fst (KernelPanicOopsHandler.Read h n pid' rbuf 0 w1)
                       = copyResultBuffer rbuf (bytes_of_string (v ++ newline))).
Proof.
  intros Hw.
  destruct (Write_success_inv h n pid buf w r w1 Hw) as (c & i & Hc & Hi & Hr & -> & ->).
  exists c. split; [done|].
  set (w0 := logged [EvContainerLookupByPid pid] w).
  pose proof (SetData_frame w0 c (IOnode.Path n) (IOnode.Name n) (trimmed buf))
    as (Hh & Ht & _).
  split; [by rewrite Hh|]. split; [by rewrite Ht|].
  split; [intros c' Hne; by rewrite SetData_other_container|].
  split; [intros p' n' Hne; by rewrite SetData_other_key|].
  intros pid' c' rbuf off Hc' Hne.
  assert (Hco : container_of (snd (State.SetData c (IOnode.Path n) (IOnode.Name n)
                                     (trimmed buf) w0)) pid' = Some c').
  { by rewrite SetData_container_of. }
  assert (Hca : cached (snd (State.SetData c (IOnode.Path n) (IOnode.Name n)
                               (trimmed buf) w0)) c' (IOnode.Path n) (IOnode.Name n)
                = cached w c' (IOnode.Path n) (IOnode.Name n)).
  { unfold cached. by rewrite SetData_other_container. }
  split; [done|]. split.
  - apply Read_result_agree.
    + by rewrite Hco, Hc'.
    + intros c0 Hc0. rewrite Hco in Hc0. injection Hc0 as <-. exact Hca.
    + by rewrite Hh.
  - intros v Hv.
    rewrite (Read_hit h n pid' rbuf 0 _ c' v); [done|lia|done|].
    by rewrite Hca.
Qed.

(** C4. A [Write] whose trimmed content does not parse as an integer, or
    parses as one below 0 or above 1, answers EINVAL and leaves the world,
    every stored value included, exactly as it was. *)
Theorem Write_invalid_rejected
        (h : KernelPanicOopsHandler.t) (n : IOnode.t) (pid : Z)
        (buf : list Byte.byte) (w : World) :
  non_numeric (trimmed buf)
  \/ (exists i, parses_as (trimmed buf) i /\ (i < 0 \/ 1 < i)) ->
  KernelPanicOopsHandler.Write h n pid buf w = ((0, Some (IOerror EINVAL)), w).
Proof. apply Write_invalid. Qed.

(** C5, amended.  For a pid with no registered container, a [Read] at
    offset 0 and a [Write] whose trimmed content parses as 0 or 1 answer
    "Container not found"; a [Write] of any other content answers EINVAL
    before the lookup; in all three cases every container is as before. *)
Theorem unregistered_pid_rejected `{ResultCopier}
        (h : KernelPanicOopsHandler.t) (n : IOnode.t) (pid : Z) (w : World) :
  container_of w pid = None ->
  (forall buf,
     KernelPanicOopsHandler.Read h n pid buf 0 w
     = ((buf, 0, Some (errors_New "Container not found")),
        logged [EvContainerLookupByPid pid] w))
  /\ (forall buf i,
        parses_as (trimmed buf) i -> i = 0 \/ i = 1 ->
        KernelPanicOopsHandler.Write h n pid buf w
        = ((0, Some (errors_New "Container not found")),
           logged [EvContainerLookupByPid pid] w))
  /\ (forall buf,
        non_numeric (trimmed buf)
        \/ (exists i, parses_as (trimmed buf) i /\ (i < 0 \/ 1 < i)) ->
        KernelPanicOopsHandler.Write h n pid buf w = ((0, Some (IOerror EINVAL)), w))
  /\ containers (logged [EvContainerLookupByPid pid] w) = containers w.
Proof.
  intros Hc. split; [|split; [|split]].
  - intros buf. by apply Read_unregistered.
  - intros buf i Hi Hr. by rewrite (Write_valid h n pid buf w i Hi Hr), Hc.
  - intros buf. apply Write_invalid.
  - reflexivity.
Qed.

(** C10. A [Write] whose trimmed content parses as 0 or 1, by a pid of a
    registered container, stores the trimmed string as the container's
    value and reports the length of the buffer as written; and the trimmed
    string of a buffer that is a core between two runs of ASCII white
    space is the core. *)
Theorem Write_stores_trimmed
        (h : KernelPanicOopsHandler.t) (n : IOnode.t) (pid : Z)
        (buf : list Byte.byte) (w : World) (c : ContainerRef) (i : Z) :
  container_of w pid = Some c ->
  parses_as (trimmed buf) i -> i = 0 \/ i = 1 ->
  (exists w1,
     KernelPanicOopsHandler.Write h n pid buf w = ((len buf, None), w1)
     /\ cached w1 c (IOnode.Path n) (IOnode.Name n) = Some (trimmed buf))
  /\ (forall pre core post,
        buf = bytes_of_string (pre ++ core ++ post) ->
        spaces pre = true -> spaces post = true -> core_ok core = true ->
        trimmed buf = core).
Proof.
  intros Hc Hi Hr. split.
  - rewrite (Write_valid h n pid buf w i Hi Hr), Hc.
    destruct (container_of_Some _ _ _ Hc) as [cntr Hcntr].
    eexists. split; [reflexivity|].
    by apply (SetData_cached _ _ _ _ _ cntr).
  - intros pre core post -> Hpre Hpost Hcore. unfold trimmed.
    unfold string_of_bytes, bytes_of_string.
    rewrite string_of_list_byte_of_string.
    by apply TrimSpace_padded.
Qed.

(** ** The claims at concrete inputs *)

Lemma Read_resolves_value_witness :
  container_of Scenario.w1 100 = Some 4026532001
  /\ container_of Scenario.w0 100 = Some 4026532001
  /\ Scenario.read 100 0 Scenario.w1
     = (Scenario.copyPrefix Scenario.rbuf (bytes_of_string ("1" ++ newline)),
        logged [EvContainerLookupByPid 100] Scenario.w1)
  /\ (exists w',
        Scenario.read 100 0 Scenario.w0
        = (Scenario.copyPrefix Scenario.rbuf (bytes_of_string ("0" ++ newline)), w')
        /\ cached w' 4026532001 Scenario.oopsPath "panic_on_oops" = Some "0"
        /\ trace w' = [EvContainerLookupByPid 100; EvHostReadLine Scenario.oopsPath]
        /\ host w' = host Scenario.w0)
  /\ Scenario.read 100 0 Scenario.wbad
     = ((Scenario.rbuf, 0, Some (IOerror EINVAL)),
        logged [EvContainerLookupByPid 100; EvHostReadLine Scenario.oopsPath] Scenario.wbad).
Proof.
  assert (H1 : container_of Scenario.w1 100 = Some 4026532001) by (vm_compute; reflexivity).
  assert (H0 : container_of Scenario.w0 100 = Some 4026532001) by (vm_compute; reflexivity).
  assert (Hb : container_of Scenario.wbad 100 = Some 4026532001) by (vm_compute; reflexivity).
  split; [exact H1|]. split; [exact H0|]. split; [|split].
  - apply (proj1 (@Read_resolves_value Scenario.copier Scenario.handler Scenario.node
                    100 Scenario.rbuf Scenario.w1 4026532001 H1) "1").
    vm_compute; reflexivity.
  - apply (proj1 (proj2 (@Read_resolves_value Scenario.copier Scenario.handler Scenario.node
                           100 Scenario.rbuf Scenario.w0 4026532001 H0)
                        ltac:(vm_compute; reflexivity) "0" None
                        ltac:(vm_compute; reflexivity) ltac:(reflexivity)) 0).
    vm_compute; reflexivity.
  - apply (proj2 (proj2 (@Read_resolves_value Scenario.copier Scenario.handler Scenario.node
                           100 Scenario.rbuf Scenario.wbad 4026532001 Hb)
                        ltac:(vm_compute; reflexivity) "oops" None
                        ltac:(vm_compute; reflexivity) ltac:(reflexivity))).
    vm_compute. discriminate.
Defined.



Lemma Write_changes_one_entry_witness :
  Scenario.write 100 "1" Scenario.w0 = ((1, None), Scenario.w1)
  /\ container_of Scenario.w0 200 = Some 4026532002
  /\ cached Scenario.w1 4026532001 Scenario.oopsPath "panic_on_oops" = Some "1"
  /\ host Scenario.w1 = host Scenario.w0
  /\ trace Scenario.w1 = [EvContainerLookupByPid 100]
  /\ containers Scenario.w1 !! 4026532002 = containers Scenario.w0 !! 4026532002
  /\ fst (Scenario.read 200 0 Scenario.w1) = fst (Scenario.read 200 0 Scenario.w0)
  /\ served (fst (Scenario.read 200 0 Scenario.w1)) = "0" ++ newline.
Proof.
  assert (Hw : Scenario.write 100 "1" Scenario.w0 = ((1, None), Scenario.w1))
    by (vm_compute; reflexivity).
  assert (H200 : container_of Scenario.w0 200 = Some 4026532002)
    by (vm_compute; reflexivity).
  destruct (@Write_changes_one_entry Scenario.copier Scenario.handler Scenario.node 100
              (bytes_of_string "1") Scenario.w0 Scenario.w1 1 Hw)
    as (c & Hc & Hh & Ht & Hother & _ & Hread).
  assert (Ec : c = 4026532001).
  { assert (E : Some c = Some 4026532001) by (rewrite <- Hc; vm_compute; reflexivity).
    by injection E. }
  subst c.
  split; [exact Hw|]. split; [exact H200|].
  split; [vm_compute; reflexivity|].
  split; [exact Hh|]. split; [exact Ht|].
  split; [apply Hother; discriminate|].
  destruct (Hread 200 4026532002 Scenario.rbuf 0 H200 ltac:(discriminate)) as (_ & Hsame & _).
  split; [exact Hsame|].
  unfold Scenario.read. rewrite Hsame. vm_compute; reflexivity.
Defined.

Lemma Write_invalid_rejected_witness :
  (exists i, parses_as (trimmed (bytes_of_string "5")) i /\ (i < 0 \/ 1 < i))
  /\ non_numeric (trimmed (bytes_of_string "on"))
  /\ Scenario.write 100 "5" Scenario.w1 = ((0, Some (IOerror EINVAL)), Scenario.w1)
  /\ Scenario.write 100 "on" Scenario.w1 = ((0, Some (IOerror EINVAL)), Scenario.w1).
Proof.
  assert (H5 : exists i, parses_as (trimmed (bytes_of_string "5")) i /\ (i < 0 \/ 1 < i)).
  { exists 5. split; [vm_compute; reflexivity|right; lia]. }
  assert (Hon : non_numeric (trimmed (bytes_of_string "on"))).
  { vm_compute. discriminate. }
  split; [exact H5|]. split; [exact Hon|]. split.
  - exact (Write_invalid_rejected Scenario.handler Scenario.node 100
             (bytes_of_string "5") Scenario.w1 (or_intror H5)).
  - exact (Write_invalid_rejected Scenario.handler Scenario.node 100
             (bytes_of_string "on") Scenario.w1 (or_introl Hon)).
Defined.

Lemma unregistered_pid_rejected_witness :
  container_of Scenario.w0 300 = None
  /\ Scenario.read 300 0 Scenario.w0
     = ((Scenario.rbuf, 0, Some (errors_New "Container not found")),
        logged [EvContainerLookupByPid 300] Scenario.w0)
  /\ Scenario.write 300 "1" Scenario.w0
     = ((0, Some (errors_New "Container not found")),
        logged [EvContainerLookupByPid 300] Scenario.w0)
  /\ Scenario.write 300 "5" Scenario.w0 = ((0, Some (IOerror EINVAL)), Scenario.w0).
Proof.
  assert (H300 : container_of Scenario.w0 300 = None) by (vm_compute; reflexivity).
  destruct (@unregistered_pid_rejected Scenario.copier Scenario.handler Scenario.node
              300 Scenario.w0 H300) as (Hr & Hw & Hi & _).
  split; [exact H300|]. split; [apply Hr|]. split.
  - apply (Hw (bytes_of_string "1") 1); [vm_compute; reflexivity|by right].
  - apply Hi. right. exists 5. split; [vm_compute; reflexivity|right; lia].
Defined.

(** C5 as stated fails: pid 300 belongs to no container and writes "5";
    the write answers EINVAL, not "Container not found". *)
Lemma unregistered_Write_invalid_counterexample :
  container_of Scenario.w0 300 = None
  /\ fst (Scenario.write 300 "5" Scenario.w0) = (0, Some (IOerror EINVAL))
  /\ snd (fst (Scenario.write 300 "5" Scenario.w0))
     <> Some (errors_New "Container not found").
Proof.
  repeat split; try (vm_compute; reflexivity); vm_compute; discriminate.
Qed.

Lemma Write_stores_trimmed_witness :
  container_of Scenario.w0 100 = Some 4026532001
  /\ parses_as (trimmed (bytes_of_string (" " ++ "1" ++ newline))) 1
  /\ (exists w1,
        Scenario.write 100 (" " ++ "1" ++ newline) Scenario.w0 = ((3, None), w1)
        /\ cached w1 4026532001 Scenario.oopsPath "panic_on_oops" = Some "1")
  /\ trimmed (bytes_of_string (" " ++ "1" ++ newline)) = "1".
Proof.
  assert (H0 : container_of Scenario.w0 100 = Some 4026532001) by (vm_compute; reflexivity).
  assert (Hp : parses_as (trimmed (bytes_of_string (" " ++ "1" ++ newline))) 1)
    by (vm_compute; reflexivity).
  destruct (Write_stores_trimmed Scenario.handler Scenario.node 100
              (bytes_of_string (" " ++ "1" ++ newline)) Scenario.w0 4026532001 1
              H0 Hp (or_intror eq_refl)) as [Hstore Htrim].
  split; [exact H0|]. split; [exact Hp|]. split; [exact Hstore|].
  apply (Htrim " " "1" newline); reflexivity.
Defined.

Lemma Read_beyond_start_EOF_witness :
  0 < 5
  /\ Scenario.read 300 5 Scenario.w0 = ((Scenario.rbuf, 0, Some io_EOF), Scenario.w0)
  /\ File.Read Scenario.hds Scenario.file
       {| Fuse.read_Pid := 300; Fuse.read_Size := 16; Fuse.read_Offset := 5 |}
       {| Fuse.read_Data := {| arr := Scenario.rbuf; length_ := 0 |} |} Scenario.w0
     = (Done ({| Fuse.read_Data := {| arr := Scenario.rbuf; length_ := 0 |} |}, None),
        Scenario.w0).
Proof.
  assert (H5 : 0 < 5) by lia.
  destruct (@Read_beyond_start_EOF Scenario.copier Scenario.handler Scenario.node 300
              Scenario.rbuf 5 Scenario.w0 H5) as [Hh Ha].
  split; [exact H5|]. split; [exact Hh|].
  apply (Ha Scenario.hds Scenario.file
            {| Fuse.read_Pid := 300; Fuse.read_Size := 16; Fuse.read_Offset := 5 |}
            {| Fuse.read_Data := {| arr := Scenario.rbuf; length_ := 0 |} |});
    try reflexivity.
  vm_compute. split; discriminate.
Defined.

Lemma Open_checks_flags_witness :
  (* O_RDWR is refused *)
  KernelPanicOopsHandler.Open Scenario.handler (IOnode.SetOpenFlags Scenario.node 2)
    100 Scenario.w0
  = (Some (IOerror EACCES), Scenario.w0)
  (* O_WRONLY on a file of the host succeeds *)
  /\ KernelPanicOopsHandler.Open Scenario.handler (IOnode.SetOpenFlags Scenario.node O_WRONLY)
       100 Scenario.w0
     = (None, logged [EvHostOpen Scenario.oopsPath O_WRONLY] Scenario.w0)
  (* O_RDONLY on a file the host does not have is an I/O error *)
  /\ KernelPanicOopsHandler.Open Scenario.handler (IOnode.SetOpenFlags Scenario.node O_RDONLY)
       100 Scenario.wgone
     = (Some (IOerror EIO), logged [EvHostOpen Scenario.oopsPath O_RDONLY] Scenario.wgone)
  (* through the adapter the refused open hands out no handle *)
  /\ File.Open Scenario.hds Scenario.file
       {| Fuse.open_Flags := 2; Fuse.open_Pid := 100 |}
       {| Fuse.openresp_Flags := 0 |} Scenario.w0
     = (Done (File.set_ionode Scenario.file (IOnode.SetOpenFlags Scenario.node 2),
              {| Fuse.openresp_Flags := 0 |}, None, Some (IOerror EACCES)),
        Scenario.w0).
Proof.
  pose proof (Open_checks_flags Scenario.handler (IOnode.SetOpenFlags Scenario.node 2)
                100 Scenario.w0) as (Hacc & _ & Hadapter).
  pose proof (Open_checks_flags Scenario.handler
                (IOnode.SetOpenFlags Scenario.node O_WRONLY) 100 Scenario.w0)
    as (_ & Hok & _).
  pose proof (Open_checks_flags Scenario.handler
                (IOnode.SetOpenFlags Scenario.node O_RDONLY) 100 Scenario.wgone)
    as (_ & Hio & _).
  assert (Hrej : KernelPanicOopsHandler.Open Scenario.handler
                   (IOnode.SetOpenFlags Scenario.node 2) 100 Scenario.w0
                 = (Some (IOerror EACCES), Scenario.w0)).
  { apply Hacc; vm_compute; discriminate. }
  split; [exact Hrej|]. split; [|split].
  - exact (Hok (or_intror eq_refl)).
  - exact (Hio (or_introl eq_refl)).
  - exact (proj1 (Hadapter Scenario.copier Scenario.hds Scenario.file Scenario.node
                    {| Fuse.open_Flags := 2; Fuse.open_Pid := 100 |}
                    {| Fuse.openresp_Flags := 0 |} (IOerror EACCES) Scenario.w0
                    eq_refl eq_refl eq_refl eq_refl Hrej)).
Defined.

(** ** Further runs of the model *)

(** White space beyond ASCII goes as well: U+00A0 before and U+0085 after. *)
Example TrimSpace_unicode :
  Strings.TrimSpace
    (string_of_list_ascii (List.map ascii_of_nat [194; 160; 49; 194; 133]%nat))
  = "1".
Proof. vm_compute. reflexivity. Qed.

(** A truncated multi-byte sequence is no white space and stays. *)
Example TrimSpace_invalid_utf8 :
  Strings.TrimSpace
    (string_of_list_ascii (List.map ascii_of_nat [32; 49; 227; 128]%nat))
  = string_of_list_ascii (List.map ascii_of_nat [49; 227; 128]%nat).
Proof. vm_compute. reflexivity. Qed.

Example Atoi_signed : Strconv.Atoi "+1" = (1, None) /\ Strconv.Atoi "-0" = (0, None).
Proof. split; vm_compute; reflexivity. Qed.

Example Atoi_syntax :
  Strconv.Atoi "" = (0, Some Strconv.ErrSyntax)
  /\ Strconv.Atoi "-" = (0, Some Strconv.ErrSyntax)
  /\ Strconv.Atoi "1 " = (0, Some Strconv.ErrSyntax)
  /\ Strconv.Atoi "0x1" = (0, Some Strconv.ErrSyntax).
Proof. repeat split; vm_compute; reflexivity. Qed.

Example Atoi_range :
  Strconv.Atoi "9223372036854775807" = (9223372036854775807, None)
  /\ Strconv.Atoi "9223372036854775808" = (9223372036854775807, Some Strconv.ErrRange)
  /\ Strconv.Atoi "-9223372036854775809" = (-9223372036854775808, Some Strconv.ErrRange).
Proof. repeat split; vm_compute; reflexivity. Qed.

(** A first read when the host has no such file: an I/O error, and nothing
    is seeded. *)
Example Read_host_failure :
  Scenario.read 100 0 Scenario.wgone
  = ((Scenario.rbuf, 0, Some (IOerror EIO)),
     logged [EvContainerLookupByPid 100; EvHostReadLine Scenario.oopsPath] Scenario.wgone).
Proof. vm_compute. reflexivity. Qed.

(** The three scenarios in a row: a first read serves the host's 0, a write
    of 1 is served back, a write of 5 is refused and 1 is served still. *)
Example Scenario_read_write_read :
  served (fst (Scenario.read 100 0 Scenario.w0)) = "0" ++ newline
  /\ served (fst (Scenario.read 101 0 Scenario.w1)) = "1" ++ newline
  /\ fst (Scenario.write 100 "5" Scenario.w1) = (0, Some (IOerror EINVAL))
  /\ served (fst (Scenario.read 100 0 (snd (Scenario.write 100 "5" Scenario.w1))))
     = "1" ++ newline.
Proof. repeat split; vm_compute; reflexivity. Qed.
